(** * svcerr: structured service errors over gRPC status codes

    A shallow embedding of [src/err/err.go] (package [svcerr]) together with
    the parts of the Go libraries it calls: [fmt], [errors],
    [google.golang.org/grpc/codes] and [google.golang.org/grpc/status].

    Conventions.
    - A Go [string] is a byte sequence: Rocq's [string] (a list of [ascii]).
    - A [codes.Code] is a [uint32]: an [N]. The library stores it as an
      [int32] inside the status message and converts it back on every read;
      the two conversions cancel, so the embedding keeps the [uint32] value.
    - A Go [int] (the HTTP code) is a [Z].
    - A nilable pointer [*Status] is an [option].
    - A call that can panic (a method call on the nil [error] interface)
      returns [option]; [None] is the panic. *)

From Stdlib Require Import ZArith NArith String Ascii List DecimalString.
From stdpp Require Import base option list gmap strings.

Local Open Scope string_scope.

(** ** Package [unicode/utf8] *)

Module utf8.

(** The encoding of [RuneError] (U+FFFD), as [writeRune] emits it. *)
Definition RuneError : string :=
  String.String "239" (String.String "191" (String.String "189" EmptyString)).

Definition inRange (lo hi b : N) : bool := ((lo <=? b) && (b <=? hi))%N.

(** The [first] table with its [acceptRanges]: for a leading byte of a
    multi-byte sequence, the sequence length and the range accepted for the
    second byte. [None] is the class [xx] (an invalid leading byte). *)
Definition first (s0 : N) : option (nat * N * N) :=
  if inRange 194 223 s0 then Some (2, 128%N, 191%N)
  else if (s0 =? 224)%N then Some (3, 160%N, 191%N)
  else if inRange 225 236 s0 then Some (3, 128%N, 191%N)
  else if (s0 =? 237)%N then Some (3, 128%N, 159%N)
  else if inRange 238 239 s0 then Some (3, 128%N, 191%N)
  else if (s0 =? 240)%N then Some (4, 144%N, 191%N)
  else if inRange 241 243 s0 then Some (4, 128%N, 191%N)
  else if (s0 =? 244)%N then Some (4, 128%N, 143%N)
  else None.

(** [locb <= b <= hicb] *)
Definition isCont (c : ascii) : bool := inRange 128 191 (N_of_ascii c).

(** [DecodeRuneInString s] followed by re-encoding of the rune: the bytes of
    the rune and the number of bytes of [s] it took. The decoder accepts
    shortest-form encodings only, so a decoded rune re-encodes to the bytes
    it was read from; anything else is [RuneError] of width 1. *)
Definition DecodeRuneInString (s : string) : string * nat :=
  match s with
  | EmptyString => (RuneError, 0)
  | String.String c0 r0 =>
    if (N_of_ascii c0 <? 128)%N then (String.String c0 EmptyString, 1)
    else
      match first (N_of_ascii c0) with
      | None => (RuneError, 1)
      | Some (sz, lo, hi) =>
        if Nat.ltb (String.length s) sz then (RuneError, 1)
        else
          match r0 with
          | EmptyString => (RuneError, 1)
          | String.String c1 r1 =>
            if negb (inRange lo hi (N_of_ascii c1)) then (RuneError, 1)
            else if Nat.leb sz 2 then (String.String c0 (String.String c1 EmptyString), 2)
            else
              match r1 with
              | EmptyString => (RuneError, 1)
              | String.String c2 r2 =>
                if negb (isCont c2) then (RuneError, 1)
                else if Nat.leb sz 3
                then (String.String c0 (String.String c1 (String.String c2 EmptyString)), 3)
                else
                  match r2 with
                  | EmptyString => (RuneError, 1)
                  | String.String c3 _ =>
                    if negb (isCont c3) then (RuneError, 1)
                    else (String.String c0 (String.String c1
                            (String.String c2 (String.String c3 EmptyString))), 4)
                  end
              end
          end
      end
  end.

End utf8.

(** ** Package [fmt] *)

Module fmt.

Definition percentBangString : string := "%!".
Definition nilAngleString : string := "<nil>".
Definition missingString : string := "(MISSING)".
Definition badIndexString : string := "(BADINDEX)".
Definition noVerbString : string := "%!(NOVERB)".
Definition badWidthString : string := "%!(BADWIDTH)".
Definition badPrecString : string := "%!(BADPREC)".

Definition isDigit (c : ascii) : bool := utf8.inRange 48 57 (N_of_ascii c).

Definition isFlag (c : ascii) : bool :=
  (c =? "#")%char || (c =? "0")%char || (c =? "+")%char
  || (c =? "-")%char || (c =? " ")%char.

(** [tooLarge]: the parser gives up on numbers above 1e6. *)
Definition tooLarge (x : Z) : bool := ((1000000 <? x) || (x <? -1000000))%Z.

(** [parsenum(s, start, end)] on the slice [s[start:end]], given as [s]:
    the number, whether digits were read, and the bytes left unread. On
    overflow the Go function returns [end] as the new index: nothing is
    left. *)
Fixpoint parsenum_from (s : string) (num : Z) (isnum : bool) : Z * bool * string :=
  match s with
  | EmptyString => (num, isnum, EmptyString)
  | String.String c r =>
    if isDigit c then
      if tooLarge num then (0%Z, false, EmptyString)
      else parsenum_from r (num * 10 + (Z.of_N (N_of_ascii c) - 48))%Z true
    else (num, isnum, s)
  end.

Definition parsenum (s : string) : Z * bool * string := parsenum_from s 0%Z false.

(** The simple-flags loop at the head of a verb. With no operand left its
    fast path for lower-case verbs is never taken; the flags themselves only
    affect how an operand is laid out. *)
Fixpoint skipFlags (s : string) : string :=
  match s with
  | String.String c r => if isFlag c then skipFlags r else s
  | EmptyString => s
  end.

(** Splits at the first [']']: the bytes before it and the bytes after it. *)
Fixpoint splitBracket (s : string) : option (string * string) :=
  match s with
  | EmptyString => None
  | String.String c r =>
    if (c =? "]")%char then Some (EmptyString, r)
    else match splitBracket r with
         | Some (inner, rest) => Some (String.String c inner, rest)
         | None => None
         end
  end.

(** [parseArgNumber] on a slice that starts with ['[']: the bytes left after
    the index, and whether the index was well formed ([ok]). *)
Definition parseArgNumber (s : string) : string * bool :=
  match s with
  | EmptyString => (s, false)
  | String.String _ r =>
    if Nat.ltb (String.length s) 3 then (r, false)
    else
      match splitBracket r with
      | Some (inner, rest) =>
        let '(_, isnum, unread) := parsenum inner in
        (rest, isnum && Nat.eqb (String.length unread) 0)
      | None => (r, false)
      end
  end.

(** [argNumber] with [numArgs = 0]: the bytes left, [found], and whether an
    index was seen at all. No index is in range when there is no operand,
    so every index clears [goodArgNum]; the third component reports that. *)
Definition argNumber (s : string) : string * bool * bool :=
  match s with
  | String.String c _ =>
    if (c =? "[")%char
    then let '(rest, ok) := parseArgNumber s in (rest, ok, true)
    else (s, false, false)
  | EmptyString => (s, false, false)
  end.

Fixpoint drop (n : nat) (s : string) : string :=
  match n, s with
  | S n', String.String _ r => drop n' r
  | _, _ => s
  end.

(** The width of a verb: a star asks for an operand, and there is none;
    otherwise a number, which no output depends on. Gives the text written,
    the bytes left and [afterIndex]. *)
Definition width (s : string) (afterIndex : bool) : string * string * bool :=
  match s with
  | String.String c r =>
    if (c =? "*")%char then (badWidthString, r, false)
    else let '(_, _, r') := parsenum s in (EmptyString, r', afterIndex)
  | EmptyString => (EmptyString, EmptyString, afterIndex)
  end.

(** The number or star after the point of a precision. *)
Definition precisionValue (s : string) (afterIndex : bool) : string * string * bool :=
  match s with
  | String.String c r =>
    if (c =? "*")%char then (badPrecString, r, false)
    else let '(_, _, r') := parsenum s in (EmptyString, r', afterIndex)
  | EmptyString => (EmptyString, EmptyString, afterIndex)
  end.

(** The precision of a verb: the text written, the bytes left,
    [afterIndex], and whether an index was seen. A point opens a precision
    only when a byte follows it ([i+1 < end]); a point that ends the format
    is left to be read as the verb. *)
Definition precision (s : string) (afterIndex : bool)
  : string * string * bool * bool :=
  match s with
  | String.String c r =>
    if (c =? ".")%char && Nat.ltb 0 (String.length r) then
      let '(r1, afterIndex', bad) := argNumber r in
      let '(out, r2, afterIndex'') := precisionValue r1 afterIndex' in
      (out, r2, afterIndex'', bad)
    else (EmptyString, s, afterIndex, false)
  | EmptyString => (EmptyString, s, afterIndex, false)
  end.

(** The verb itself, once flags, index, width and precision are read:
    [bad] says that [goodArgNum] is false. With no operand every verb but
    the percent sign is reported. *)
Definition verbRune (s : string) (bad : bool) : string * string :=
  match s with
  | EmptyString => (noVerbString, EmptyString)
  | String.String c _ =>
    let '(v, size) :=
      if (N_of_ascii c <? 128)%N then (String.String c EmptyString, 1)
      else utf8.DecodeRuneInString s in
    let out :=
      if (c =? "%")%char then "%"
      else if bad then percentBangString +:+ v +:+ badIndexString
      else percentBangString +:+ v +:+ missingString in
    (out, drop size s)
  end.

(** One verb of [doPrintf], from the byte after ['%'], when the operand
    list is empty: the text written and the bytes of the format left. *)
Definition verb (s : string) : string * string :=
  let '(s1, afterIndex1, bad1) := argNumber (skipFlags s) in
  let '(outW, s2, afterIndex2) := width s1 afterIndex1 in
  let '(outP, s3, afterIndex3, bad2) := precision s2 afterIndex2 in
  let '(s4, bad3) :=
    if afterIndex3 then (s3, false)
    else let '(r, _, bad) := argNumber s3 in (r, bad) in
  let '(out, rest) := verbRune s4 (bad1 || bad2 || bad3) in
  (outW +:+ outP +:+ out, rest).

(** [doPrintf(format, a)] with [a] empty. The index [i] of the Go loop only
    moves forward; [skip] counts the bytes after the current one that the
    last verb has taken already. *)
Fixpoint doPrintf (skip : nat) (format : string) : string :=
  match format with
  | EmptyString => EmptyString
  | String.String c r =>
    match skip with
    | S k => doPrintf k r
    | O =>
      if (c =? "%")%char
      then let '(out, rest) := verb r in
           out +:+ doPrintf (String.length r - String.length rest) r
      else String.String c (doPrintf 0 r)
    end
  end.

(** [fmt.Sprintf(format)] with no operands. *)
Definition Sprintf0 (format : string) : string := doPrintf 0 format.

Fixpoint join (sep : string) (l : list string) : string :=
  match l with
  | [] => EmptyString
  | [x] => x
  | x :: rest => x +:+ sep +:+ join sep rest
  end.

(** [fmt.Sprintf("%s", v)] for a slice [v] of interface values whose
    elements are rendered by their [Error] or [String] method ([elems] are
    those renderings): brackets around the elements, a space between. *)
Definition Sprintf_s_slice (elems : list string) : string :=
  "[" +:+ join " " elems +:+ "]".

End fmt.

(** ** Package [google.golang.org/grpc/codes] *)

Module codes.

(** [type Code uint32] *)
Definition Code : Type := N.

Definition OK : Code := 0%N.
Definition Canceled : Code := 1%N.
Definition Unknown : Code := 2%N.
Definition InvalidArgument : Code := 3%N.
Definition DeadlineExceeded : Code := 4%N.
Definition NotFound : Code := 5%N.
Definition AlreadyExists : Code := 6%N.
Definition PermissionDenied : Code := 7%N.
Definition ResourceExhausted : Code := 8%N.
Definition FailedPrecondition : Code := 9%N.
Definition Aborted : Code := 10%N.
Definition OutOfRange : Code := 11%N.
Definition Unimplemented : Code := 12%N.
Definition Internal : Code := 13%N.
Definition Unavailable : Code := 14%N.
Definition DataLoss : Code := 15%N.
Definition Unauthenticated : Code := 16%N.

(** [strconv.FormatInt(int64(c), 10)] *)
Definition FormatInt (c : Code) : string := NilZero.string_of_uint (N.to_uint c).

(** [func (c Code) String() string] *)
Definition String (c : Code) : string :=
  match c with
  | 0%N => "OK"
  | 1%N => "Canceled"
  | 2%N => "Unknown"
  | 3%N => "InvalidArgument"
  | 4%N => "DeadlineExceeded"
  | 5%N => "NotFound"
  | 6%N => "AlreadyExists"
  | 7%N => "PermissionDenied"
  | 8%N => "ResourceExhausted"
  | 9%N => "FailedPrecondition"
  | 10%N => "Aborted"
  | 11%N => "OutOfRange"
  | 12%N => "Unimplemented"
  | 13%N => "Internal"
  | 14%N => "Unavailable"
  | 15%N => "DataLoss"
  | 16%N => "Unauthenticated"
  | _ => "Code(" +:+ FormatInt c +:+ ")"
  end.

End codes.

(** ** Package [net/http]: the status constants the mapping uses *)

Module http.

Definition StatusOK : Z := 200.
Definition StatusBadRequest : Z := 400.
Definition StatusUnauthorized : Z := 401.
Definition StatusForbidden : Z := 403.
Definition StatusNotFound : Z := 404.
Definition StatusConflict : Z := 409.
Definition StatusTooManyRequests : Z := 429.
Definition StatusInternalServerError : Z := 500.
Definition StatusNotImplemented : Z := 501.
Definition StatusServiceUnavailable : Z := 503.
Definition StatusGatewayTimeout : Z := 504.

End http.

(** ** Detail messages: package [proto], with [ptypes]

    The interface [proto.Message] with the two [ptypes] functions the status
    package applies to it. The wire format is the protobuf library's; an
    instance says which messages marshal, what they decode to and how a
    message prints. Errors are given by their text. *)

Module proto.

Class Codec := {
  (** the values of interface type [proto.Message] *)
  Message : Type;
  (** [*any.Any] *)
  Any : Type;
  (** [ptypes.MarshalAny] *)
  MarshalAny : Message -> Any + string;
  (** [ptypes.UnmarshalAny] into a [ptypes.DynamicAny] *)
  UnmarshalAny : Any -> Message + string;
  (** the method [String() string] *)
  String : Message -> string;
}.

End proto.

(** ** Package [google.golang.org/grpc/status] and the [error] interface *)

Module status.
Section status.
Context `{!proto.Codec}.

(** The message [spb.Status] behind a [*Status]. *)
Record Status : Type := mkStatus {
  s_Code : codes.Code;
  s_Message : string;
  s_Details : list proto.Any;
}.

(** The values of interface type [error] that the package meets: the nil
    interface, the status package's own error (the one dynamic type with a
    [GRPCStatus] method), the value of [errors.New] and the value of
    [fmt.Errorf] with a [%w] operand. *)
Inductive error : Type :=
| nil
| statusError (p : Status)
| errorString (s : string)
| wrapError (msg : string) (err : error).

(** [codes.Code] and [error] values under the verb [%s] print through their
    [String] and [Error] methods. *)
Definition statusError_Error (p : Status) : string :=
  "rpc error: code = " +:+ codes.String (s_Code p) +:+ " desc = " +:+ s_Message p.

(** The method [Error() string]. Calling it on the nil interface panics. *)
Definition Error_ (err : error) : option string :=
  match err with
  | nil => None
  | statusError p => Some (statusError_Error p)
  | errorString s => Some s
  | wrapError msg _ => Some msg
  end.

(** [errors.New(text)] *)
Definition errors_New (text : string) : error := errorString text.

(** [errors.Unwrap(err)]: the result of the [Unwrap] method of [err] when
    its dynamic type has one, nil otherwise. Of the errors here only the
    value of [fmt.Errorf] with a [%w] operand has the method; it gives the
    operand back. *)
Definition Unwrap (err : error) : error :=
  match err with
  | wrapError _ inner => inner
  | _ => nil
  end.

(** [func New(c codes.Code, msg string) *Status] *)
Definition New (c : codes.Code) (msg : string) : option Status :=
  Some (mkStatus c msg []).

(** [func (s *Status) Code() codes.Code] *)
Definition Code (s : option Status) : codes.Code :=
  match s with
  | None => codes.OK
  | Some p => s_Code p
  end.

(** [func (s *Status) Message() string] *)
Definition Message_ (s : option Status) : string :=
  match s with
  | None => EmptyString
  | Some p => s_Message p
  end.

(** [func (s *Status) Err() error]: nil when the code is OK. *)
Definition Err (s : option Status) : error :=
  match s with
  | None => nil
  | Some p => if (s_Code p =? codes.OK)%N then nil else statusError p
  end.

(** [func Error(c codes.Code, msg string) error] *)
Definition Error (c : codes.Code) (msg : string) : error := Err (New c msg).

(** [func Errorf(c codes.Code, format string, a ...interface{}) error] with
    [a] empty: [Error(c, fmt.Sprintf(format))]. *)
Definition Errorf (c : codes.Code) (format : string) : error :=
  Error c (fmt.Sprintf0 format).

(** [func FromError(err error) (s *Status, ok bool)]: "FromError returns a
    Status representing err if it was produced from this package or has a
    method GRPCStatus. Otherwise, ok is false and a Status is returned with
    codes.Unknown and the original error message." This is the function of
    the grpc-go releases that go with the protobuf text format of the
    package's example (messages in angle brackets): the error itself is
    asked for the method, and an error that wraps a status error is not
    looked into. *)
Definition FromError (err : error) : option (option Status * bool) :=
  match err with
  | nil => Some (None, true)
  | statusError p => Some (Some p, true)
  | _ => msg ← Error_ err; Some (New codes.Unknown msg, false)
  end.

(** [func Convert(err error) *Status] *)
Definition Convert (err : error) : option (option Status) :=
  '(s, _) ← FromError err; Some s.

(** The loop of [WithDetails]: marshal each detail and append it. *)
Fixpoint appendDetails (p : Status) (details : list proto.Message) : Status + error :=
  match details with
  | [] => inl p
  | detail :: rest =>
    match proto.MarshalAny detail with
    | inr e => inr (errorString e)
    | inl any => appendDetails (mkStatus (s_Code p) (s_Message p) (s_Details p ++ [any])) rest
    end
  end.

(** [func (s *Status) WithDetails(details ...proto.Message)], which returns
    a [*Status] and an [error]: the new status, or the first error met. It
    works on a copy of [s]. *)
Definition WithDetails (s : option Status) (details : list proto.Message) : Status + error :=
  match s with
  | None => inr (errorString "no error details for status with code OK")
  | Some p =>
    if (s_Code p =? codes.OK)%N
    then inr (errorString "no error details for status with code OK")
    else appendDetails p details
  end.

(** [func (s *Status) Details() []interface{}]: each detail decoded, or the
    decoding error in its place. *)
Definition Details (s : option Status) : list (proto.Message + string) :=
  match s with
  | None => []
  | Some p => map proto.UnmarshalAny (s_Details p)
  end.

(** How [fmt] prints one element of [Details()] under [%s]. *)
Definition detailText (d : proto.Message + string) : string :=
  match d with
  | inl m => proto.String m
  | inr e => e
  end.

(** [fmt.Sprintf("%s", s.Details())] *)
Definition DetailsText (s : option Status) : string :=
  fmt.Sprintf_s_slice (map detailText (Details s)).

End status.
End status.

(** ** Package [svcerr]: [src/err/err.go] *)

Module svcerr.

(** [time.Time]: an instant, read from the clock by [time.Now()]. *)
Definition Time : Type := Z.

(** [type RestErr struct] *)
Module RestErr.
Record t : Type := mk {
  Code : Z;
  Desc : string;
  Message : string;
  Details : string;
}.
End RestErr.

(** [type SvcErr struct] *)
Module SvcErr.
Record t : Type := mk {
  Rest : RestErr.t;
  LocalTime : Time;
}.
End SvcErr.

(** grpc error codes to http codes mapping *)
Definition httpMap : gmap N Z :=
  list_to_map [
    (codes.OK, http.StatusOK);
    (codes.Canceled, 499%Z);
    (codes.Unknown, http.StatusInternalServerError);
    (codes.InvalidArgument, http.StatusBadRequest);
    (codes.DeadlineExceeded, http.StatusGatewayTimeout);
    (codes.NotFound, http.StatusNotFound);
    (codes.AlreadyExists, http.StatusConflict);
    (codes.PermissionDenied, http.StatusForbidden);
    (codes.ResourceExhausted, http.StatusTooManyRequests);
    (codes.FailedPrecondition, http.StatusBadRequest);
    (codes.Aborted, http.StatusConflict);
    (codes.OutOfRange, http.StatusBadRequest);
    (codes.Unimplemented, http.StatusNotImplemented);
    (codes.Internal, http.StatusInternalServerError);
    (codes.Unavailable, http.StatusServiceUnavailable);
    (codes.DataLoss, http.StatusInternalServerError);
    (codes.Unauthenticated, http.StatusUnauthorized)
  ].

(** [httpMap[c]]: indexing a Go map at a key it does not hold gives the zero
    value of the element type. *)
Definition httpMap_index (c : codes.Code) : Z := default 0%Z (httpMap !! c).

Section svcerr.
Context `{!proto.Codec}.

(** [fmt.Errorf("%s:(%w)", text, err)]. A non-nil [err] prints through its
    [Error] method and is kept as the wrapped error. The nil interface is
    no error operand: the verb is reported as bad in the text, and the
    result is still a wrapped error, holding nil (Go 1.20 and later; the
    releases before returned the value of [errors.New] with the same text,
    which has the same text, validity and [Unwrap]). *)
Definition fmt_Errorf (text : string) (err : status.error) : status.error :=
  match status.Error_ err with
  | Some s => status.wrapError (text +:+ ":(" +:+ s +:+ ")") err
  | None =>
    status.wrapError
      (text +:+ ":(" +:+ fmt.percentBangString +:+ "w(" +:+ fmt.nilAngleString +:+ "))")
      status.nil
  end.

(** Wrap - Function to wrap an error within a new error *)
Definition Wrap (text : string) (err : status.error) : status.error := fmt_Errorf text err.

(** internal function creates new error and adds message details *)
Definition newErr (c : codes.Code) (message : string) (details : list proto.Message)
  : option status.error :=
  let err := status.Errorf c message in
  if negb (Nat.eqb (length details) 0) then
    s ← status.Convert err;
    match status.WithDetails s details with
    | inr lerr => Some err
    | inl errDetail => Some (status.Err (Some errDetail))
    end
  else Some err.

(** InvalidArgs - Creates a new error of type InvalidArgument *)
Definition InvalidArgs (msg : string) (details : list proto.Message) : option status.error :=
  newErr codes.InvalidArgument msg details.

(** InternalErr Creates a new error of type Internal. *)
Definition InternalErr (msg : string) (details : list proto.Message) : option status.error :=
  newErr codes.Internal msg details.

(** Unknown Creates a new error of type Unknown *)
Definition Unknown (msg : string) (details : list proto.Message) : option status.error :=
  newErr codes.Unknown msg details.

(** NotFound Creates a new error of type NotFound *)
Definition NotFound (msg : string) (details : list proto.Message) : option status.error :=
  newErr codes.NotFound msg details.

(** PermDenied Creates a new error of type Permission Denied *)
Definition PermDenied (msg : string) (details : list proto.Message) : option status.error :=
  newErr codes.PermissionDenied msg details.

(** Canceled - Returns Request Canceled error *)
Definition Canceled (msg : string) (details : list proto.Message) : option status.error :=
  newErr codes.Canceled msg details.

(** DeadlineExceeded - returns Deadline errors *)
Definition DeadlineExceeded (msg : string) (details : list proto.Message) : option status.error :=
  newErr codes.DeadlineExceeded msg details.

(** AlreadyExists -- Returns error to client *)
Definition AlreadyExists (msg : string) (details : list proto.Message) : option status.error :=
  newErr codes.AlreadyExists msg details.

(** ResourceExhausted - Returns Error to client *)
Definition ResourceExhausted (msg : string) (details : list proto.Message) : option status.error :=
  newErr codes.ResourceExhausted msg details.

(** FailedPreCondition -- Returns Pre cond failure errors *)
Definition FailedPreCondition (msg : string) (details : list proto.Message) : option status.error :=
  newErr codes.FailedPrecondition msg details.

(** Aborted - Request Aborted errors *)
Definition Aborted (msg : string) (details : list proto.Message) : option status.error :=
  newErr codes.Aborted msg details.

(** OutOfRange - errors retured to client *)
Definition OutOfRange (msg : string) (details : list proto.Message) : option status.error :=
  newErr codes.OutOfRange msg details.

(** Unimplemented - errors returned to client *)
Definition Unimplemented (msg : string) (details : list proto.Message) : option status.error :=
  newErr codes.Unimplemented msg details.

(** DataLoss - errors to be returned to Client *)
Definition DataLoss (msg : string) (details : list proto.Message) : option status.error :=
  newErr codes.DataLoss msg details.

(** Unavailable - errors to be returned to Client *)
Definition Unavailable (msg : string) (details : list proto.Message) : option status.error :=
  newErr codes.Unavailable msg details.

(** Unauthenticated Creates a new error of type Unauthenticated *)
Definition Unauthenticated (msg : string) (details : list proto.Message) : option status.error :=
  newErr codes.Unauthenticated msg details.

(** ConvHTTP - converts grpc error into Http Error structure. [now] is the
    value of [time.Now()] at the call. *)
Definition ConvHTTP (now : Time) (err : status.error) : option SvcErr.t :=
  '(st, ok) ← status.FromError err;
  rest ← (if ok : bool then
            Some (RestErr.mk
                    (httpMap_index (status.Code st))
                    (codes.String (status.Code st))
                    (status.Message_ st)
                    (status.DetailsText st))
          else
            desc ← status.Error_ err;
            Some (RestErr.mk http.StatusInternalServerError desc EmptyString EmptyString));
  Some (SvcErr.mk rest now).

(** IsValid - returns true if error is of rpc status type *)
Definition IsValid (err : status.error) : option bool :=
  '(_, ok) ← status.FromError err;
  Some ok.

(** String - returns string representation of rpc status error structure *)
Definition String (err : status.error) : option string :=
  '(s, ok) ← status.FromError err;
  if ok : bool then
    Some ("Code = " +:+ codes.String (status.Code s)
          +:+ ", Message = " +:+ status.Message_ s
          +:+ ", Details = " +:+ status.DetailsText s)
  else Some (status.Message_ s).

(** Code - returns internal code from error *)
Definition Code (err : status.error) : option codes.Code :=
  '(s, ok) ← status.FromError err;
  if ok : bool then Some (status.Code s) else Some codes.Unknown.

End svcerr.
End svcerr.

(** ** The specification's vocabulary *)

Module spec.

(** The closed set of status kinds. *)
Inductive StatusKind : Type :=
| OK | CANCELED | UNKNOWN | INVALID_ARGUMENT | DEADLINE_EXCEEDED | NOT_FOUND
| ALREADY_EXISTS | PERMISSION_DENIED | RESOURCE_EXHAUSTED | FAILED_PRECONDITION
| ABORTED | OUT_OF_RANGE | UNIMPLEMENTED | INTERNAL | UNAVAILABLE | DATA_LOSS
| UNAUTHENTICATED.

(** The constant of package [codes] that stands for a kind. *)
Definition code (k : StatusKind) : codes.Code :=
  match k with
  | OK => codes.OK
  | CANCELED => codes.Canceled
  | UNKNOWN => codes.Unknown
  | INVALID_ARGUMENT => codes.InvalidArgument
  | DEADLINE_EXCEEDED => codes.DeadlineExceeded
  | NOT_FOUND => codes.NotFound
  | ALREADY_EXISTS => codes.AlreadyExists
  | PERMISSION_DENIED => codes.PermissionDenied
  | RESOURCE_EXHAUSTED => codes.ResourceExhausted
  | FAILED_PRECONDITION => codes.FailedPrecondition
  | ABORTED => codes.Aborted
  | OUT_OF_RANGE => codes.OutOfRange
  | UNIMPLEMENTED => codes.Unimplemented
  | INTERNAL => codes.Internal
  | UNAVAILABLE => codes.Unavailable
  | DATA_LOSS => codes.DataLoss
  | UNAUTHENTICATED => codes.Unauthenticated
  end.

(** The numeric mapping table of the specification's external interfaces,
    entry by entry as the specification lists it. *)
Definition numericCode (k : StatusKind) : Z :=
  match k with
  | OK => 200
  | CANCELED => 499
  | UNKNOWN => 500
  | INVALID_ARGUMENT => 400
  | DEADLINE_EXCEEDED => 504
  | NOT_FOUND => 404
  | ALREADY_EXISTS => 409
  | PERMISSION_DENIED => 403
  | RESOURCE_EXHAUSTED => 429
  | FAILED_PRECONDITION => 400
  | ABORTED => 409
  | OUT_OF_RANGE => 400
  | UNIMPLEMENTED => 501
  | INTERNAL => 500
  | UNAVAILABLE => 503
  | DATA_LOSS => 500
  | UNAUTHENTICATED => 401
  end.

(** The sixteen operations of the construction API. *)
Inductive Constructor : Type :=
| InvalidArgs | InternalErr | Unknown | NotFound | PermDenied | Canceled
| DeadlineExceeded | AlreadyExists | ResourceExhausted | FailedPreCondition
| Aborted | OutOfRange | Unimplemented | DataLoss | Unavailable
| Unauthenticated.

(** The function of package [svcerr] behind each operation. *)
Definition construct `{!proto.Codec} (f : Constructor)
  : string -> list proto.Message -> option status.error :=
  match f with
  | InvalidArgs => svcerr.InvalidArgs
  | InternalErr => svcerr.InternalErr
  | Unknown => svcerr.Unknown
  | NotFound => svcerr.NotFound
  | PermDenied => svcerr.PermDenied
  | Canceled => svcerr.Canceled
  | DeadlineExceeded => svcerr.DeadlineExceeded
  | AlreadyExists => svcerr.AlreadyExists
  | ResourceExhausted => svcerr.ResourceExhausted
  | FailedPreCondition => svcerr.FailedPreCondition
  | Aborted => svcerr.Aborted
  | OutOfRange => svcerr.OutOfRange
  | Unimplemented => svcerr.Unimplemented
  | DataLoss => svcerr.DataLoss
  | Unavailable => svcerr.Unavailable
  | Unauthenticated => svcerr.Unauthenticated
  end.

(** The kind bound to each constructor. *)
Definition kind (f : Constructor) : StatusKind :=
  match f with
  | InvalidArgs => INVALID_ARGUMENT
  | InternalErr => INTERNAL
  | Unknown => UNKNOWN
  | NotFound => NOT_FOUND
  | PermDenied => PERMISSION_DENIED
  | Canceled => CANCELED
  | DeadlineExceeded => DEADLINE_EXCEEDED
  | AlreadyExists => ALREADY_EXISTS
  | ResourceExhausted => RESOURCE_EXHAUSTED
  | FailedPreCondition => FAILED_PRECONDITION
  | Aborted => ABORTED
  | OutOfRange => OUT_OF_RANGE
  | Unimplemented => UNIMPLEMENTED
  | DataLoss => DATA_LOSS
  | Unavailable => UNAVAILABLE
  | Unauthenticated => UNAUTHENTICATED
  end.

(** A detail record is well formed when it marshals and the stored form
    decodes to a message that prints as the record does. *)
Definition wellFormed `{!proto.Codec} (d : proto.Message) : bool :=
  match proto.MarshalAny d with
  | inl any =>
    match proto.UnmarshalAny any with
    | inl d' => String.eqb (proto.String d') (proto.String d)
    | inr _ => false
    end
  | inr _ => false
  end.

End spec.

(** ** The detail messages of the package's tests

    [badReq] of [TestErrorFuncs], [br] of [ExampleInvalidArgs] (printed as
    the example's expected output has it), and the nil message, which
    [proto.Marshal] refuses. *)

Module testdata.

Inductive TestMessage : Type := nilMessage | badReq | br.

Definition dquote : string := String.String "034" EmptyString.

Definition fieldViolation (field description : string) : string :=
  "field_violations:<field:" +:+ dquote +:+ field +:+ dquote
  +:+ " description:" +:+ dquote +:+ description +:+ dquote +:+ " > ".

Definition TestMessage_String (m : TestMessage) : string :=
  match m with
  | nilMessage => fmt.nilAngleString
  | badReq => fieldViolation "Test" "Test"
  | br => fieldViolation "Field Name" "mandatory field not provided"
  end.

Definition TestMessage_Marshal (m : TestMessage) : TestMessage + string :=
  match m with
  | nilMessage => inr "proto: Marshal called with nil"
  | _ => inl m
  end.

#[export] Instance codec : proto.Codec := {|
  proto.Message := TestMessage;
  proto.Any := TestMessage;
  proto.MarshalAny := TestMessage_Marshal;
  proto.UnmarshalAny := inl;
  proto.String := TestMessage_String;
|}.

End testdata.

(** ** Reading a result *)

Module observe.
Section observe.
Context `{!proto.Codec}.

(** Translation of the error a constructor returned: the [Rest] part of
    [ConvHTTP]'s result (the time stamp is on the wrapper around it). *)
Definition Translate (now : svcerr.Time) (e : option status.error)
  : option svcerr.RestErr.t :=
  err ← e; se ← svcerr.ConvHTTP now err; Some (svcerr.SvcErr.Rest se).

(** No byte of [s] is the percent sign. *)
Fixpoint noPercent (s : string) : bool :=
  match s with
  | EmptyString => true
  | String.String c r => negb (c =? "%")%char && noPercent r
  end.

(** The message [s] with every percent sign doubled. *)
Fixpoint escapePercent (s : string) : string :=
  match s with
  | EmptyString => EmptyString
  | String.String c r =>
    if (c =? "%")%char
    then String.String c (String.String c (escapePercent r))
    else String.String c (escapePercent r)
  end.

(** [ptypes.MarshalAny] accepts the detail. *)
Definition marshals (d : proto.Message) : bool :=
  match proto.MarshalAny d with
  | inl _ => true
  | inr _ => false
  end.

(** What [Details()] holds for a detail once it is stored, as [fmt] prints
    it: the text of the decoded message, or the text of the decoding error
    in its place. *)
Definition shown (d : proto.Message) : string :=
  match proto.MarshalAny d with
  | inl any => status.detailText (proto.UnmarshalAny any)
  | inr _ => EmptyString
  end.

(** [rest] is what is left of [s] after some of its first bytes. *)
Definition suffixOf (rest s : string) : Prop := exists pre, s = pre +:+ rest.

End observe.
End observe.

(** * Properties *)

Section properties.
Context `{!proto.Codec}.

Import status.

(** ** The libraries *)

Import observe.

Lemma append_empty_r (s : string) : s +:+ EmptyString = s.
Proof.
  induction s as [|c r IH]; [reflexivity|].
  change (String.String c (r +:+ EmptyString) = String.String c r).
  now rewrite IH.
Qed.

Lemma append_assoc (a b c : string) : (a +:+ b) +:+ c = a +:+ (b +:+ c).
Proof.
  induction a as [|x a IH]; [reflexivity|].
  change (String.String x ((a +:+ b) +:+ c) = String.String x (a +:+ (b +:+ c))).
  now rewrite IH.
Qed.

Lemma append_length (a b : string) :
  String.length (a +:+ b) = String.length a + String.length b.
Proof.
  induction a as [|x a IH]; [reflexivity|].
  change (S (String.length (a +:+ b)) = S (String.length a + String.length b)).
  now rewrite IH.
Qed.

Lemma suffixOf_refl (s : string) : suffixOf s s.
Proof. now exists EmptyString. Qed.

Lemma suffixOf_empty (s : string) : suffixOf EmptyString s.
Proof. exists s. now rewrite append_empty_r. Qed.

Lemma suffixOf_cons (c : ascii) (rest s : string) :
  suffixOf rest s -> suffixOf rest (String.String c s).
Proof. intros [pre ->]. now exists (String.String c pre). Qed.

Lemma suffixOf_trans (a b c : string) : suffixOf a b -> suffixOf b c -> suffixOf a c.
Proof. intros [p ->] [q ->]. exists (q +:+ p). now rewrite append_assoc. Qed.

Create HintDb suffix.
#[local] Hint Resolve suffixOf_refl suffixOf_empty suffixOf_cons : suffix.

Lemma skipFlags_suffix (s : string) : suffixOf (fmt.skipFlags s) s.
Proof.
  induction s as [|c r IH]; simpl; [auto with suffix|].
  destruct (fmt.isFlag c); auto with suffix.
Qed.

Lemma parsenum_from_suffix (s : string) :
  forall num b, suffixOf (fmt.parsenum_from s num b).2 s.
Proof.
  induction s as [|c r IH]; simpl; intros num b; [auto with suffix|].
  destruct (fmt.isDigit c); [|auto with suffix].
  destruct (fmt.tooLarge num); auto with suffix.
Qed.

Lemma parsenum_suffix (s : string) : suffixOf (fmt.parsenum s).2 s.
Proof. apply parsenum_from_suffix. Qed.

Lemma splitBracket_suffix (s : string) :
  forall inner rest, fmt.splitBracket s = Some (inner, rest) -> suffixOf rest s.
Proof.
  induction s as [|c r IH]; simpl; intros inner rest Hs; [discriminate|].
  destruct (c =? "]")%char.
  - inversion Hs; subst. auto with suffix.
  - destruct (fmt.splitBracket r) as [[i t]|] eqn:Hr; [|discriminate].
    inversion Hs; subst. eauto with suffix.
Qed.

Lemma parseArgNumber_suffix (s : string) : suffixOf (fmt.parseArgNumber s).1 s.
Proof.
  unfold fmt.parseArgNumber. destruct s as [|c r]; [auto with suffix|].
  destruct (Nat.ltb _ 3); [auto with suffix|].
  destruct (fmt.splitBracket r) as [[i t]|] eqn:Hr; [|auto with suffix].
  destruct (fmt.parsenum i) as [[? ?] ?]. simpl.
  eapply suffixOf_cons, splitBracket_suffix; eauto.
Qed.

Lemma argNumber_suffix (s : string) : suffixOf (fmt.argNumber s).1.1 s.
Proof.
  unfold fmt.argNumber. destruct s as [|c r]; [auto with suffix|].
  destruct (c =? "[")%char; [|auto with suffix].
  pose proof (parseArgNumber_suffix (String.String c r)) as Hp.
  destruct (fmt.parseArgNumber _) as [t ok]. exact Hp.
Qed.

Lemma width_suffix (s : string) (ai : bool) : suffixOf (fmt.width s ai).1.2 s.
Proof.
  unfold fmt.width. destruct s as [|c r]; [auto with suffix|].
  destruct (c =? "*")%char; [simpl; auto with suffix|].
  pose proof (parsenum_suffix (String.String c r)) as Hp.
  destruct (fmt.parsenum _) as [[? ?] ?]. exact Hp.
Qed.

Lemma precisionValue_suffix (s : string) (ai : bool) :
  suffixOf (fmt.precisionValue s ai).1.2 s.
Proof.
  unfold fmt.precisionValue. destruct s as [|c r]; [auto with suffix|].
  destruct (c =? "*")%char; [simpl; auto with suffix|].
  pose proof (parsenum_suffix (String.String c r)) as Hp.
  destruct (fmt.parsenum _) as [[? ?] ?]. exact Hp.
Qed.

Lemma precision_suffix (s : string) (ai : bool) :
  suffixOf (fmt.precision s ai).1.1.2 s.
Proof.
  unfold fmt.precision. destruct s as [|c r]; [auto with suffix|].
  destruct ((c =? ".")%char && Nat.ltb 0 (String.length r)); [|auto with suffix].
  pose proof (argNumber_suffix r) as Ha.
  destruct (fmt.argNumber r) as [[r1 ai'] bad]. simpl in Ha.
  pose proof (precisionValue_suffix r1 ai') as Hv.
  destruct (fmt.precisionValue r1 ai') as [[out r2] ai'']. simpl in *.
  apply suffixOf_cons. eapply suffixOf_trans; eauto.
Qed.

Lemma drop_suffix (n : nat) : forall s, suffixOf (fmt.drop n s) s.
Proof.
  induction n as [|n IH]; intros [|c r]; simpl; auto with suffix.
Qed.

Lemma verbRune_suffix (s : string) (bad : bool) : suffixOf (fmt.verbRune s bad).2 s.
Proof.
  unfold fmt.verbRune. destruct s as [|c r]; [auto with suffix|].
  destruct (if (N_of_ascii c <? 128)%N then _ else _) as [v size].
  apply drop_suffix.
Qed.

(** A verb leaves a final part of what it was given. *)
Lemma verb_suffix (s : string) : suffixOf (fmt.verb s).2 s.
Proof.
  unfold fmt.verb.
  pose proof (skipFlags_suffix s) as H0.
  pose proof (argNumber_suffix (fmt.skipFlags s)) as H1.
  destruct (fmt.argNumber (fmt.skipFlags s)) as [[s1 ai1] bad1]. simpl in H1.
  pose proof (width_suffix s1 ai1) as H2.
  destruct (fmt.width s1 ai1) as [[outW s2] ai2]. simpl in H2.
  pose proof (precision_suffix s2 ai2) as H3.
  destruct (fmt.precision s2 ai2) as [[[outP s3] ai3] bad2]. simpl in H3.
  assert (H03 : suffixOf s3 s) by eauto using suffixOf_trans.
  assert (H4 : suffixOf
                 (if ai3 then (s3, false)
                  else let '(r, _, bad) := fmt.argNumber s3 in (r, bad)).1 s).
  { destruct ai3; [exact H03|].
    pose proof (argNumber_suffix s3) as Ha.
    destruct (fmt.argNumber s3) as [[r ?] bad]. simpl in *.
    eauto using suffixOf_trans. }
  destruct (if ai3 then _ else _) as [s4 bad3]. simpl in H4.
  pose proof (verbRune_suffix s4 (bad1 || bad2 || bad3)) as H5.
  destruct (fmt.verbRune s4 _) as [out rest]. simpl in *.
  eauto using suffixOf_trans.
Qed.

Lemma doPrintf_skip (pre rest : string) :
  fmt.doPrintf (String.length pre) (pre +:+ rest) = fmt.doPrintf 0 rest.
Proof. induction pre as [|c pre IH]; [reflexivity|exact IH]. Qed.

(** The loop of [doPrintf] at a percent sign: the text of the verb, then
    the loop again on what the verb left. *)
Lemma doPrintf_verb (r : string) :
  fmt.doPrintf 0 (String.String "%" r)
    = (fmt.verb r).1 +:+ fmt.doPrintf 0 (fmt.verb r).2.
Proof.
  cbn [fmt.doPrintf]. change ("%" =? "%")%char with true. cbv iota.
  destruct (verb_suffix r) as [pre Hpre].
  destruct (fmt.verb r) as [out rest]. simpl in *.
  subst r. rewrite append_length.
  replace (String.length pre + String.length rest - String.length rest)
    with (String.length pre) by lia.
  now rewrite doPrintf_skip.
Qed.

(** The loop of [doPrintf] at any other byte: the byte is copied. *)
Lemma doPrintf_literal (c : ascii) (r : string) :
  (c =? "%")%char = false ->
  fmt.doPrintf 0 (String.String c r) = String.String c (fmt.doPrintf 0 r).
Proof. intros Hc. cbn [fmt.doPrintf]. now rewrite Hc. Qed.

Lemma doPrintf_noPercent (s : string) :
  observe.noPercent s = true -> fmt.doPrintf 0 s = s.
Proof.
  induction s as [|c r IH]; simpl; [reflexivity|].
  intros Hs. apply andb_prop in Hs as [Hc Hr].
  destruct (c =? "%")%char; [discriminate|].
  now rewrite IH.
Qed.

Lemma Sprintf0_noPercent (s : string) :
  observe.noPercent s = true -> fmt.Sprintf0 s = s.
Proof. apply doPrintf_noPercent. Qed.

Lemma Errorf_statusError (c : codes.Code) (format : string) :
  c <> codes.OK ->
  Errorf c format = statusError (mkStatus c (fmt.Sprintf0 format) []).
Proof.
  intros Hc. unfold Errorf, Error, Err, New. simpl.
  destruct (N.eqb_spec c codes.OK); [contradiction|reflexivity].
Qed.

Lemma Errorf_OK (format : string) : Errorf codes.OK format = nil.
Proof. reflexivity. Qed.

Lemma appendDetails_inl (details : list proto.Message) :
  forall p p', appendDetails p details = inl p' ->
    s_Code p' = s_Code p /\ s_Message p' = s_Message p.
Proof.
  induction details as [|d rest IH]; simpl; intros p p' Hp.
  - inversion Hp; subst; auto.
  - destruct (proto.MarshalAny d); [|discriminate].
    apply IH in Hp. simpl in Hp. exact Hp.
Qed.

Lemma appendDetails_inr (details : list proto.Message) :
  forall p e, appendDetails p details = inr e -> exists text, e = errorString text.
Proof.
  induction details as [|d rest IH]; simpl; intros p e Hp; [discriminate|].
  destruct (proto.MarshalAny d) as [a|t].
  - eapply IH; eauto.
  - inversion Hp; eauto.
Qed.

Lemma WithDetails_inr (s : option Status) (details : list proto.Message) (e : error) :
  WithDetails s details = inr e -> exists text, e = errorString text.
Proof.
  unfold WithDetails. destruct s as [p|].
  - destruct (s_Code p =? codes.OK)%N.
    + intros He; inversion He; eauto.
    + apply appendDetails_inr.
  - intros He; inversion He; eauto.
Qed.

Lemma appendDetails_wellFormed (details : list proto.Message) :
  forallb spec.wellFormed details = true ->
  forall p, exists anys,
    appendDetails p details
      = inl (mkStatus (s_Code p) (s_Message p) (s_Details p ++ anys))
    /\ map detailText (map proto.UnmarshalAny anys) = map proto.String details.
Proof.
  induction details as [|d rest IH]; simpl; intros Hwf p.
  - exists []. rewrite app_nil_r. destruct p; auto.
  - apply andb_prop in Hwf as [Hd Hrest].
    unfold spec.wellFormed in Hd.
    destruct (proto.MarshalAny d) as [a|t] eqn:Hm; [|discriminate].
    destruct (proto.UnmarshalAny a) as [d'|t] eqn:Hu; [|discriminate].
    apply String.eqb_eq in Hd.
    destruct (IH Hrest (mkStatus (s_Code p) (s_Message p) (s_Details p ++ [a])))
      as (anys & Happ & Htxt).
    exists (a :: anys). simpl in *. split.
    + rewrite Happ. now rewrite <- app_assoc.
    + rewrite Hu. simpl. now rewrite Hd, Htxt.
Qed.

(** ** The constructors *)

Lemma construct_newErr (f : spec.Constructor) (msg : string) (ds : list proto.Message) :
  spec.construct f msg ds = svcerr.newErr (spec.code (spec.kind f)) msg ds.
Proof. destruct f; reflexivity. Qed.

Lemma kind_not_OK (f : spec.Constructor) : spec.code (spec.kind f) <> codes.OK.
Proof. destruct f; discriminate. Qed.

Lemma newErr_no_details (c : codes.Code) (msg : string) :
  svcerr.newErr c msg [] = Some (Errorf c msg).
Proof. reflexivity. Qed.

(** What [newErr] returns for a code other than OK: the status error of the
    decorated status when every detail marshals, the undecorated one
    otherwise. *)
Lemma newErr_not_OK (c : codes.Code) (msg : string) (ds : list proto.Message) :
  c <> codes.OK ->
  svcerr.newErr c msg ds =
    Some (match appendDetails (mkStatus c (fmt.Sprintf0 msg) []) ds with
          | inl p => statusError p
          | inr _ => statusError (mkStatus c (fmt.Sprintf0 msg) [])
          end).
Proof.
  intros Hc. unfold svcerr.newErr. rewrite (Errorf_statusError _ _ Hc).
  destruct ds as [|d rest]; [reflexivity|].
  cbn [length Nat.eqb negb Convert FromError mbind option_bind WithDetails s_Code].
  destruct (N.eqb_spec c codes.OK) as [|_]; [contradiction|].
  destruct (appendDetails _ (d :: rest)) as [p|e] eqn:Happ; [|reflexivity].
  apply appendDetails_inl in Happ as [Hcode _]. simpl in Hcode.
  unfold Err. rewrite Hcode.
  destruct (N.eqb_spec c codes.OK); [contradiction|reflexivity].
Qed.

Lemma newErr_OK (msg : string) (ds : list proto.Message) :
  svcerr.newErr codes.OK msg ds = Some nil.
Proof. destruct ds; reflexivity. Qed.

(** The error of a constructor is a status error that carries the bound
    code and the formatted message. *)
Lemma construct_statusError (f : spec.Constructor) (msg : string) (ds : list proto.Message) :
  exists p, spec.construct f msg ds = Some (statusError p)
    /\ s_Code p = spec.code (spec.kind f)
    /\ s_Message p = fmt.Sprintf0 msg.
Proof.
  rewrite construct_newErr, (newErr_not_OK _ _ _ (kind_not_OK f)).
  destruct (appendDetails _ ds) as [p|e] eqn:Happ.
  - exists p. apply appendDetails_inl in Happ as [? ?]. auto.
  - eexists; split; [reflexivity|auto].
Qed.

(** ** Translation *)

Lemma httpMap_table (k : spec.StatusKind) :
  svcerr.httpMap !! spec.code k = Some (spec.numericCode k).
Proof. destruct k; vm_compute; reflexivity. Qed.

Lemma httpMap_index_table (k : spec.StatusKind) :
  svcerr.httpMap_index (spec.code k) = spec.numericCode k.
Proof. unfold svcerr.httpMap_index. now rewrite httpMap_table. Qed.

Lemma ConvHTTP_statusError (now : svcerr.Time) (p : Status) :
  svcerr.ConvHTTP now (statusError p) =
    Some (svcerr.SvcErr.mk
            (svcerr.RestErr.mk (svcerr.httpMap_index (s_Code p))
               (codes.String (s_Code p)) (s_Message p) (DetailsText (Some p)))
            now).
Proof. reflexivity. Qed.

Lemma ConvHTTP_nil (now : svcerr.Time) :
  svcerr.ConvHTTP now nil =
    Some (svcerr.SvcErr.mk
            (svcerr.RestErr.mk http.StatusOK "OK" EmptyString "[]") now).
Proof. reflexivity. Qed.

(** C1. For every status kind, every message and every sequence of detail
    records, translating the error built for that kind carries the numeric
    code of the specification's table: for each of the sixteen constructors
    with the kind bound to it, and for [newErr] at each of the seventeen
    kinds (OK included, which no constructor is bound to). *)
Theorem C1_ConvHTTP_numeric_code :
  (forall (f : spec.Constructor) (msg : string) (ds : list proto.Message)
          (now : svcerr.Time),
      svcerr.RestErr.Code <$> observe.Translate now (spec.construct f msg ds)
        = Some (spec.numericCode (spec.kind f)))
  /\ (forall (k : spec.StatusKind) (msg : string) (ds : list proto.Message)
             (now : svcerr.Time),
      svcerr.RestErr.Code <$> observe.Translate now (svcerr.newErr (spec.code k) msg ds)
        = Some (spec.numericCode k)).
Proof.
  split.
  - intros f msg ds now.
    destruct (construct_statusError f msg ds) as (p & -> & Hc & _).
    unfold observe.Translate. cbn [mbind option_bind].
    rewrite ConvHTTP_statusError. cbn. rewrite Hc.
    now rewrite httpMap_index_table.
  - intros k msg ds now.
    destruct (N.eq_dec (spec.code k) codes.OK) as [Hk|Hk].
    + rewrite Hk, newErr_OK. destruct k; try discriminate. reflexivity.
    + rewrite (newErr_not_OK _ _ _ Hk).
      unfold observe.Translate. cbn [mbind option_bind].
      destruct (appendDetails _ ds) as [p|e] eqn:Happ.
      * apply appendDetails_inl in Happ as [Hc _]. simpl in Hc.
        rewrite ConvHTTP_statusError. cbn. rewrite Hc.
        now rewrite httpMap_index_table.
      * rewrite ConvHTTP_statusError. cbn.
        now rewrite httpMap_index_table.
Qed.

(** An error without status information is one whose [Error] text is all
    there is to it. *)
Lemma IsValid_false (err : error) :
  svcerr.IsValid err = Some false ->
  exists text, Error_ err = Some text
    /\ FromError err = Some (New codes.Unknown text, false).
Proof.
  destruct err; simpl; try discriminate; intros _; eauto.
Qed.

(** C2 (as amended). For every error that carries no status information,
    translation gives the numeric code 500, the short description [Desc]
    equal to the error's own text, an empty message and empty details. *)
Theorem C2_ConvHTTP_plain_error (now : svcerr.Time) (err : error) :
  svcerr.IsValid err = Some false ->
  exists text,
    Error_ err = Some text
    /\ svcerr.ConvHTTP now err =
         Some (svcerr.SvcErr.mk
                 (svcerr.RestErr.mk 500 text EmptyString EmptyString) now).
Proof.
  intros Hv. destruct (IsValid_false err Hv) as (text & He & Hf).
  exists text. split; [exact He|].
  unfold svcerr.ConvHTTP. rewrite Hf. cbn. rewrite He. reflexivity.
Qed.

(** C3 (the code at the failing input). A status error whose code, 17, is
    not a key of [httpMap] translates without a panic, and its numeric code
    is 0, the zero value of the map's element type. *)
Theorem C3_ConvHTTP_unmapped_code (now : svcerr.Time) :
  svcerr.httpMap !! 17%N = None
  /\ svcerr.ConvHTTP now (Error 17%N "x") =
       Some (svcerr.SvcErr.mk (svcerr.RestErr.mk 0 "Code(17)" "x" "[]") now).
Proof. split; vm_compute; reflexivity. Qed.

(** Outside the table the numeric code is always 0. *)
Lemma ConvHTTP_unmapped (now : svcerr.Time) (p : Status) :
  svcerr.httpMap !! s_Code p = None ->
  svcerr.RestErr.Code <$> observe.Translate now (Some (statusError p)) = Some 0%Z.
Proof.
  intros Hp. unfold observe.Translate. cbn [mbind option_bind].
  rewrite ConvHTTP_statusError. cbn. unfold svcerr.httpMap_index.
  now rewrite Hp.
Qed.

(** ** Rendering *)

Lemma String_statusError (p : Status) :
  svcerr.String (statusError p) =
    Some ("Code = " +:+ codes.String (s_Code p)
          +:+ ", Message = " +:+ s_Message p
          +:+ ", Details = " +:+ DetailsText (Some p)).
Proof. reflexivity. Qed.

(** C4 (the code at the failing input). [InvalidArgs] called with the
    message [100%] and no detail renders with the message [100%!(NOVERB)]:
    the message went through [status.Errorf] as a format. *)
Theorem C4_String_percent_message :
  svcerr.InvalidArgs "100%" [] ≫= svcerr.String
    = Some "Code = InvalidArgument, Message = 100%!(NOVERB), Details = []".
Proof. vm_compute. reflexivity. Qed.

(** A message without a percent sign is rendered as it is, for every
    constructor. *)
Lemma String_no_details (f : spec.Constructor) (msg : string) :
  observe.noPercent msg = true ->
  spec.construct f msg [] ≫= svcerr.String
    = Some ("Code = " +:+ codes.String (spec.code (spec.kind f))
            +:+ ", Message = " +:+ msg +:+ ", Details = []").
Proof.
  intros Hmsg. rewrite construct_newErr, newErr_no_details.
  rewrite (Errorf_statusError _ _ (kind_not_OK f)).
  cbn [mbind option_bind]. rewrite String_statusError. cbn [s_Code s_Message].
  now rewrite (Sprintf0_noPercent _ Hmsg).
Qed.

(** ** Construction *)

(** Fail-soft construction. Every constructor returns a non-nil error,
    whatever the message and the details. When attaching the details to the
    underlying status fails (which needs at least one detail), the
    constructor returns the undecorated error:
    the one it returns without details, a status error with the bound code,
    the message as [status.Errorf] carries it and no details, which is not
    the error of the attachment. *)
Lemma newErr_fail_soft :
  (forall (f : spec.Constructor) (msg : string) (ds : list proto.Message),
      exists e, spec.construct f msg ds = Some e /\ e <> nil)
  /\ (forall (f : spec.Constructor) (msg : string) (ds : list proto.Message)
             (s : option Status) (lerr : error),
      Convert (Errorf (spec.code (spec.kind f)) msg) = Some s ->
      WithDetails s ds = inr lerr ->
      spec.construct f msg ds = Some (Errorf (spec.code (spec.kind f)) msg)
      /\ spec.construct f msg ds = spec.construct f msg []
      /\ Errorf (spec.code (spec.kind f)) msg
           = statusError (mkStatus (spec.code (spec.kind f)) (fmt.Sprintf0 msg) [])
      /\ Errorf (spec.code (spec.kind f)) msg <> lerr).
Proof.
  split.
  - intros f msg ds. destruct (construct_statusError f msg ds) as (p & Hp & _).
    exists (statusError p). split; [exact Hp|discriminate].
  - intros f msg ds s lerr Hs Hw.
    assert (Hund := Errorf_statusError _ msg (kind_not_OK f)).
    assert (Hres : spec.construct f msg ds
                   = Some (Errorf (spec.code (spec.kind f)) msg)).
    { rewrite construct_newErr. unfold svcerr.newErr.
      destruct ds as [|d rest]; [reflexivity|].
      cbn [length Nat.eqb negb]. rewrite Hs. cbn [mbind option_bind].
      now rewrite Hw. }
    repeat split.
    + exact Hres.
    + now rewrite Hres, construct_newErr, newErr_no_details.
    + exact Hund.
    + rewrite Hund. destruct (WithDetails_inr _ _ _ Hw) as (text & ->).
      discriminate.
Qed.

(** ** Introspection *)

(** C6. [IsValid] is true of the error of every constructor, with or
    without details, and false of every error made by [errors.New] from a
    bare message. *)
Theorem C6_IsValid_factory_and_plain :
  (forall (f : spec.Constructor) (msg : string) (ds : list proto.Message),
      spec.construct f msg ds ≫= svcerr.IsValid = Some true)
  /\ (forall text : string, svcerr.IsValid (errors_New text) = Some false).
Proof.
  split.
  - intros f msg ds. destruct (construct_statusError f msg ds) as (p & -> & _).
    reflexivity.
  - reflexivity.
Qed.

(** C7. For every text and every error [e] returned by a constructor, the
    text of [Wrap text e] is the text, a colon, and the text of [e] in
    parentheses; the wrapped error carries no status information, so
    [IsValid] is false of it and [String] gives that same text. *)
Theorem C7_Wrap_text (text : string) (f : spec.Constructor) (msg : string)
    (ds : list proto.Message) (e : error) :
  spec.construct f msg ds = Some e ->
  exists r,
    Error_ e = Some r
    /\ Error_ (svcerr.Wrap text e) = Some (text +:+ ":(" +:+ r +:+ ")")
    /\ svcerr.IsValid (svcerr.Wrap text e) = Some false
    /\ svcerr.String (svcerr.Wrap text e) = Some (text +:+ ":(" +:+ r +:+ ")").
Proof.
  intros He. destruct (construct_statusError f msg ds) as (p & Hp & _).
  rewrite Hp in He. inversion He; subst e.
  exists (statusError_Error p). repeat split.
Qed.

(** C8. [Code] returns a code for every error (no call panics); for the
    error of a constructor it is the code of the bound kind; for an error
    without status information it is [codes.Unknown]. *)
Theorem C8_Code_total :
  (forall err : error, is_Some (svcerr.Code err))
  /\ (forall (f : spec.Constructor) (msg : string) (ds : list proto.Message),
      spec.construct f msg ds ≫= svcerr.Code = Some (spec.code (spec.kind f)))
  /\ (forall err : error,
      svcerr.IsValid err = Some false -> svcerr.Code err = Some codes.Unknown).
Proof.
  repeat split.
  - intros err. destruct err; simpl; eauto.
  - intros f msg ds. destruct (construct_statusError f msg ds) as (p & -> & Hc & _).
    cbn. now rewrite Hc.
  - intros err Hv. destruct (IsValid_false err Hv) as (text & _ & Hf).
    unfold svcerr.Code. now rewrite Hf.
Qed.

(** C9. For every constructor, translating the error built with well-formed
    detail records gives as details the records' renderings in the order
    they were passed, a space between two of them, in square brackets; with
    no detail record the details are the two brackets. *)
Theorem C9_ConvHTTP_details :
  (forall (f : spec.Constructor) (msg : string) (ds : list proto.Message)
          (now : svcerr.Time),
      forallb spec.wellFormed ds = true ->
      svcerr.RestErr.Details <$> observe.Translate now (spec.construct f msg ds)
        = Some ("[" +:+ fmt.join " " (map proto.String ds) +:+ "]"))
  /\ (forall (f : spec.Constructor) (msg : string) (now : svcerr.Time),
      svcerr.RestErr.Details <$> observe.Translate now (spec.construct f msg [])
        = Some "[]").
Proof.
  assert (Hgen : forall f msg ds now, forallb spec.wellFormed ds = true ->
      svcerr.RestErr.Details <$> observe.Translate now (spec.construct f msg ds)
        = Some ("[" +:+ fmt.join " " (map proto.String ds) +:+ "]")).
  { intros f msg ds now Hwf.
    rewrite construct_newErr, (newErr_not_OK _ _ _ (kind_not_OK f)).
    destruct (appendDetails_wellFormed ds Hwf
                (mkStatus (spec.code (spec.kind f)) (fmt.Sprintf0 msg) []))
      as (anys & -> & Htxt).
    unfold observe.Translate. cbn [mbind option_bind].
    rewrite ConvHTTP_statusError. cbn.
    unfold DetailsText, Details, fmt.Sprintf_s_slice. cbn [s_Details app].
    now rewrite Htxt. }
  split; [exact Hgen|].
  intros f msg now. now rewrite (Hgen f msg [] now eq_refl).
Qed.

(** C10. On the nil error [IsValid] is true and [Code] is [codes.OK]:
    [status.FromError] reports success for nil, with a nil status, whose
    code reads as OK. *)
Theorem C10_nil_is_valid_OK :
  FromError nil = Some (None, true)
  /\ svcerr.IsValid nil = Some true
  /\ svcerr.Code nil = Some codes.OK.
Proof. repeat split. Qed.

End properties.

(** * The package's tests, and the properties at concrete inputs *)

Section tests.
Import status testdata.

(** [TestConvHTTP], its three rows. *)
Example TestConvHTTP :
  observe.Translate 0%Z (svcerr.InvalidArgs "Invalid Args" [])
    = Some (svcerr.RestErr.mk http.StatusBadRequest
              (codes.String codes.InvalidArgument) "Invalid Args" "[]")
  /\ observe.Translate 0%Z (svcerr.NotFound "Not Found" [])
    = Some (svcerr.RestErr.mk http.StatusNotFound
              (codes.String codes.NotFound) "Not Found" "[]")
  /\ observe.Translate 0%Z (Some (errors_New "Generic"))
    = Some (svcerr.RestErr.mk http.StatusInternalServerError "Generic"
              EmptyString EmptyString).
Proof. repeat split. Qed.

(** [ExampleInvalidArgs], its output for the error with a detail. *)
Example ExampleInvalidArgs :
  svcerr.InvalidArgs "Additional Message" [br] ≫= Error_
    = Some "rpc error: code = InvalidArgument desc = Additional Message"
  /\ svcerr.InvalidArgs "Additional Message" [br] ≫= svcerr.String
    = Some ("Code = InvalidArgument, Message = Additional Message, Details = ["
            +:+ fieldViolation "Field Name" "mandatory field not provided" +:+ "]")
  /\ observe.Translate 0%Z (svcerr.InvalidArgs "Additional Message" [br])
    = Some (svcerr.RestErr.mk 400 "InvalidArgument" "Additional Message"
              ("[" +:+ fieldViolation "Field Name" "mandatory field not provided"
               +:+ "]")).
Proof. repeat split. Qed.

(** [TestString] and [TestIsValid]. *)
Example TestString_TestIsValid :
  svcerr.InvalidArgs "test" [] ≫= svcerr.String
    = Some "Code = InvalidArgument, Message = test, Details = []"
  /\ svcerr.String (errors_New "test") = Some "test"
  /\ svcerr.ResourceExhausted "Resource Exhausted" [] ≫= svcerr.IsValid = Some true
  /\ svcerr.IsValid (errors_New "Test Error") = Some false.
Proof. repeat split. Qed.

(** C2, as the claim states it, fails at [errors.New("Generic")]: the claim
    wants an empty [Desc] and the text in [Message]; [ConvHTTP] puts the
    text in [Desc] and leaves [Message] empty. *)
Lemma C2_counterexample :
  svcerr.IsValid (errors_New "Generic") = Some false
  /\ ~ (exists se,
         svcerr.ConvHTTP 0%Z (errors_New "Generic") = Some se
         /\ svcerr.SvcErr.Rest se
            = svcerr.RestErr.mk 500 EmptyString "Generic" EmptyString).
Proof.
  split; [reflexivity|].
  intros (se & Hse & Hrest). vm_compute in Hse. inversion Hse; subst se.
  discriminate Hrest.
Qed.

(** C2 as amended, at [errors.New("Generic")], the third row of
    [TestConvHTTP]. *)
Lemma C2_witness :
  svcerr.IsValid (errors_New "Generic") = Some false
  /\ exists text,
       Error_ (errors_New "Generic") = Some text
       /\ svcerr.ConvHTTP 0%Z (errors_New "Generic") =
            Some (svcerr.SvcErr.mk
                    (svcerr.RestErr.mk 500 text EmptyString EmptyString) 0%Z).
Proof.
  split; [reflexivity|].
  apply (@C2_ConvHTTP_plain_error codec 0%Z (errors_New "Generic")). reflexivity.
Defined.

(** C5 (the code at the failing input). [InvalidArgs] called with the
    message [100%] and the nil message as its one detail: the nil message
    does not marshal, attaching fails, and the constructor falls back to a
    non-nil status error with the bound code and no details. The message of
    that error is [100%!(NOVERB)], not the message passed: it went through
    [status.Errorf] as a format, as in C4. *)
Theorem C5_fallback_percent_message :
  WithDetails (New codes.InvalidArgument (fmt.Sprintf0 "100%")) [nilMessage]
    = inr (errorString "proto: Marshal called with nil")
  /\ svcerr.InvalidArgs "100%" [nilMessage]
     = Some (statusError (mkStatus codes.InvalidArgument "100%!(NOVERB)" []))
  /\ svcerr.InvalidArgs "100%" [nilMessage]
     <> Some (statusError (mkStatus codes.InvalidArgument "100%" [])).
Proof. repeat split. discriminate. Qed.

(** C7 at the input of [TestWrap]. *)
Lemma C7_witness :
  svcerr.NotFound "Not Found" []
    = Some (statusError (mkStatus codes.NotFound "Not Found" []))
  /\ exists r,
       Error_ (statusError (mkStatus codes.NotFound "Not Found" [])) = Some r
       /\ Error_ (svcerr.Wrap "Outer Text"
                    (statusError (mkStatus codes.NotFound "Not Found" [])))
          = Some ("Outer Text" +:+ ":(" +:+ r +:+ ")")
       /\ svcerr.IsValid (svcerr.Wrap "Outer Text"
                            (statusError (mkStatus codes.NotFound "Not Found" [])))
          = Some false
       /\ svcerr.String (svcerr.Wrap "Outer Text"
                           (statusError (mkStatus codes.NotFound "Not Found" [])))
          = Some ("Outer Text" +:+ ":(" +:+ r +:+ ")").
Proof.
  split; [reflexivity|].
  apply (@C7_Wrap_text codec "Outer Text" spec.NotFound "Not Found" []). reflexivity.
Defined.

(** C8 at [errors.New("Test Error")], the second row of [TestIsValid]. *)
Lemma C8_witness :
  svcerr.IsValid (errors_New "Test Error") = Some false
  /\ svcerr.Code (errors_New "Test Error") = Some codes.Unknown.
Proof.
  split; [reflexivity|].
  apply (proj2 (proj2 (@C8_Code_total codec)) (errors_New "Test Error")). reflexivity.
Defined.

(** C9 at [InvalidArgs("Additional Message", &br, &badReq)]. *)
Lemma C9_witness :
  forallb spec.wellFormed [br; badReq] = true
  /\ svcerr.RestErr.Details
       <$> observe.Translate 0%Z (svcerr.InvalidArgs "Additional Message" [br; badReq])
     = Some ("[" +:+ fieldViolation "Field Name" "mandatory field not provided"
             +:+ " " +:+ fieldViolation "Test" "Test" +:+ "]").
Proof.
  split; [reflexivity|].
  apply (proj1 (@C9_ConvHTTP_details codec) spec.InvalidArgs "Additional Message"
           [br; badReq] 0%Z).
  reflexivity.
Defined.

End tests.

(** * Coverage: the rest of the package's behaviour *)

Section coverage.
Context `{!proto.Codec}.
Import status observe.

(** ** Further properties of the package

    Helper facts first. *)

(** A percent sign after a percent sign is the verb that prints one. *)
Lemma verb_percent (r : string) : fmt.verb (String.String "%" r) = ("%", r).
Proof. reflexivity. Qed.

(** Formatting undoes the doubling of percent signs. *)
Lemma doPrintf_escapePercent (s : string) : fmt.doPrintf 0 (escapePercent s) = s.
Proof.
  induction s as [|c r IH]; [reflexivity|].
  cbn [escapePercent]. destruct (c =? "%")%char eqn:Hc.
  - apply Ascii.eqb_eq in Hc. subst c.
    rewrite doPrintf_verb, verb_percent. cbn [fst snd]. now rewrite IH.
  - rewrite (doPrintf_literal _ _ Hc). now rewrite IH.
Qed.

(** [httpMap] has no key above [codes.Unauthenticated]. *)
Lemma httpMap_outside (c : codes.Code) : (16 < c)%N -> svcerr.httpMap !! c = None.
Proof.
  intros Hc. unfold svcerr.httpMap. apply not_elem_of_list_to_map_1.
  cbn [fmap list_fmap fst].
  unfold codes.OK, codes.Canceled, codes.Unknown, codes.InvalidArgument,
    codes.DeadlineExceeded, codes.NotFound, codes.AlreadyExists,
    codes.PermissionDenied, codes.ResourceExhausted, codes.FailedPrecondition,
    codes.Aborted, codes.OutOfRange, codes.Unimplemented, codes.Internal,
    codes.Unavailable, codes.DataLoss, codes.Unauthenticated.
  repeat (apply not_elem_of_cons; split; [lia|]).
  apply not_elem_of_nil.
Qed.

(** The codes up to 16 are the seventeen kinds. *)
Lemma code_le_16 (c : N) : (c <= 16)%N -> exists k, c = spec.code k.
Proof.
  intros Hc.
  assert (Hcases : (c = 0 \/ c = 1 \/ c = 2 \/ c = 3 \/ c = 4 \/ c = 5 \/ c = 6
                   \/ c = 7 \/ c = 8 \/ c = 9 \/ c = 10 \/ c = 11 \/ c = 12
                   \/ c = 13 \/ c = 14 \/ c = 15 \/ c = 16)%N) by lia.
  repeat (destruct Hcases as [->|Hcases]);
    [ now exists spec.OK | now exists spec.CANCELED | now exists spec.UNKNOWN
    | now exists spec.INVALID_ARGUMENT | now exists spec.DEADLINE_EXCEEDED
    | now exists spec.NOT_FOUND | now exists spec.ALREADY_EXISTS
    | now exists spec.PERMISSION_DENIED | now exists spec.RESOURCE_EXHAUSTED
    | now exists spec.FAILED_PRECONDITION | now exists spec.ABORTED
    | now exists spec.OUT_OF_RANGE | now exists spec.UNIMPLEMENTED
    | now exists spec.INTERNAL | now exists spec.UNAVAILABLE
    | now exists spec.DATA_LOSS | subst c; now exists spec.UNAUTHENTICATED ].
Qed.

(** The seventeen kinds are the codes up to 16. *)
Lemma code_range (k : spec.StatusKind) : (spec.code k <= 16)%N.
Proof. destruct k; vm_compute; discriminate. Qed.

(** Every entry of the table is between 200 and 504. *)
Lemma numericCode_range (k : spec.StatusKind) :
  (200 <= spec.numericCode k <= 504)%Z.
Proof. destruct k; simpl; lia. Qed.


(** When every detail marshals, all are appended, in order. *)
Lemma appendDetails_marshals (ds : list proto.Message) :
  forallb marshals ds = true ->
  forall p, exists anys,
    appendDetails p ds
      = inl (mkStatus (s_Code p) (s_Message p) (s_Details p ++ anys))
    /\ map detailText (map proto.UnmarshalAny anys) = map shown ds.
Proof.
  induction ds as [|d rest IH]; simpl; intros Hm p.
  - exists []. rewrite app_nil_r. destruct p; auto.
  - apply andb_prop in Hm as [Hd Hrest]. unfold marshals in Hd. unfold shown at 1.
    destruct (proto.MarshalAny d) as [a|t]; [|discriminate].
    destruct (IH Hrest (mkStatus (s_Code p) (s_Message p) (s_Details p ++ [a])))
      as (anys & Happ & Htxt).
    exists (a :: anys). simpl in *. split; [|now rewrite Htxt].
    rewrite Happ. now rewrite <- app_assoc.
Qed.

(** When some detail does not marshal, the loop ends in an error. *)
Lemma appendDetails_refused (ds : list proto.Message) :
  forallb marshals ds = false ->
  forall p, exists e, appendDetails p ds = inr e.
Proof.
  induction ds as [|d rest IH]; simpl; intros Hm p; [discriminate|].
  unfold marshals in Hm at 1.
  destruct (proto.MarshalAny d) as [a|t]; [|eauto].
  apply IH. exact Hm.
Qed.

(** X1. For an error without status information, [String] returns the
    error's own text, with no prefix. *)
Theorem X1_String_plain (err : error) :
  svcerr.IsValid err = Some false -> svcerr.String err = Error_ err.
Proof. destruct err; simpl; intros Hv; try discriminate; reflexivity. Qed.

(** X2. For every error, nil included, the numeric code of [ConvHTTP] is
    the entry of [httpMap] at the code that [Code] returns: the two
    functions agree on status errors, on nil (OK, 200) and on errors
    without status information (Unknown, 500). *)
Theorem X2_ConvHTTP_code_of_Code (now : svcerr.Time) (err : error) :
  svcerr.RestErr.Code <$> Translate now (Some err)
    = svcerr.httpMap_index <$> svcerr.Code err.
Proof. destruct err; reflexivity. Qed.

(** X3. [ConvHTTP], [String] and [IsValid] return for every error: the
    call of [Error] in their fallback branches never meets the nil
    interface. [ConvHTTP] stamps the result with the clock's value, and
    the rest of the result does not depend on it. *)
Theorem X3_no_panic (err : error) (now now' : svcerr.Time) :
  (exists rest,
      svcerr.ConvHTTP now err = Some (svcerr.SvcErr.mk rest now)
      /\ svcerr.ConvHTTP now' err = Some (svcerr.SvcErr.mk rest now'))
  /\ is_Some (svcerr.String err)
  /\ is_Some (svcerr.IsValid err).
Proof. destruct err; repeat split; simpl; eauto. Qed.

(** X4. Whatever error is wrapped (a status error, nil, a plain or a
    wrapped error), the result of [Wrap] carries no status information:
    [IsValid] is false, [Code] is Unknown, [String] is the wrapped text and
    [ConvHTTP] gives 500 with that text as [Desc]. *)
Theorem X4_Wrap_degrades (text : string) (err : error) (now : svcerr.Time) :
  exists w,
    Error_ (svcerr.Wrap text err) = Some w
    /\ svcerr.IsValid (svcerr.Wrap text err) = Some false
    /\ svcerr.Code (svcerr.Wrap text err) = Some codes.Unknown
    /\ svcerr.String (svcerr.Wrap text err) = Some w
    /\ svcerr.ConvHTTP now (svcerr.Wrap text err)
       = Some (svcerr.SvcErr.mk
                 (svcerr.RestErr.mk 500 w EmptyString EmptyString) now).
Proof. destruct err; eexists; repeat split. Qed.

(** X5. [Wrap] keeps its operand: [errors.Unwrap] of the result is the
    error that was wrapped, so its code and validity can be read again
    after unwrapping. *)
Theorem X5_Unwrap_Wrap (text : string) (err : error) :
  Unwrap (svcerr.Wrap text err) = err
  /\ svcerr.Code (Unwrap (svcerr.Wrap text err)) = svcerr.Code err
  /\ svcerr.IsValid (Unwrap (svcerr.Wrap text err)) = svcerr.IsValid err.
Proof. destruct err; repeat split. Qed.

(** X6. [Wrap] never returns nil, whatever its operand, and its result
    always has a text. For the nil operand the text is the given text with
    the report of the missing operand in parentheses, and unwrapping the
    result gives nil again. *)
Theorem X6_Wrap_not_nil (text : string) (err : error) :
  svcerr.Wrap text err <> nil
  /\ is_Some (Error_ (svcerr.Wrap text err))
  /\ Error_ (svcerr.Wrap text nil) = Some (text +:+ ":(%!w(<nil>))")
  /\ Unwrap (svcerr.Wrap text nil) = nil.
Proof. destruct err; repeat split; simpl; eauto; discriminate. Qed.

(** X7. The text of a wrapped error is the text given, a colon and the
    text of the operand in parentheses, for every non-nil operand; wrapping
    twice nests the parentheses. *)
Theorem X7_Wrap_nested (outer inner : string) (err : error) (r : string) :
  Error_ err = Some r ->
  Error_ (svcerr.Wrap inner err) = Some (inner +:+ ":(" +:+ r +:+ ")")
  /\ Error_ (svcerr.Wrap outer (svcerr.Wrap inner err))
     = Some (outer +:+ ":(" +:+ (inner +:+ ":(" +:+ r +:+ ")") +:+ ")").
Proof.
  intros Hr. unfold svcerr.Wrap, svcerr.fmt_Errorf. rewrite Hr. simpl. auto.
Qed.

(** X8. Details are attached all or none: the status of a constructor's
    error holds as many details as were passed when every one of them
    marshals, and none at all when one does not (those before it are
    dropped as well). *)
Theorem X8_details_all_or_nothing (f : spec.Constructor) (msg : string)
    (ds : list proto.Message) :
  exists p,
    spec.construct f msg ds = Some (statusError p)
    /\ length (Details (Some p))
       = if forallb marshals ds then length ds else 0.
Proof.
  rewrite construct_newErr, (newErr_not_OK _ _ _ (kind_not_OK f)).
  destruct (forallb marshals ds) eqn:Hm.
  - destruct (appendDetails_marshals ds Hm
                (mkStatus (spec.code (spec.kind f)) (fmt.Sprintf0 msg) []))
      as (anys & -> & Htxt).
    eexists; split; [reflexivity|].
    apply (f_equal (@length string)) in Htxt.
    rewrite !length_map in Htxt. simpl. now rewrite length_map.
  - destruct (appendDetails_refused ds Hm
                (mkStatus (spec.code (spec.kind f)) (fmt.Sprintf0 msg) []))
      as (e & ->).
    eexists; split; reflexivity.
Qed.

(** X9. For a valid error, [String] is made of the fields of [ConvHTTP]'s
    result: its [Desc], [Message] and [Details]. *)
Theorem X9_String_of_ConvHTTP (now : svcerr.Time) (err : error)
    (rest : svcerr.RestErr.t) :
  svcerr.IsValid err = Some true ->
  Translate now (Some err) = Some rest ->
  svcerr.String err
    = Some ("Code = " +:+ svcerr.RestErr.Desc rest
            +:+ ", Message = " +:+ svcerr.RestErr.Message rest
            +:+ ", Details = " +:+ svcerr.RestErr.Details rest).
Proof.
  destruct err; simpl; intros Hv Ht; try discriminate;
    inversion Ht; subst rest; reflexivity.
Qed.

(** X10. The numeric code of a constructor's error is between 400 and
    504: no constructor gives a success code. *)
Theorem X10_constructor_code_range (f : spec.Constructor) (msg : string)
    (ds : list proto.Message) (now : svcerr.Time) :
  exists code,
    svcerr.RestErr.Code <$> Translate now (spec.construct f msg ds) = Some code
    /\ (400 <= code <= 504)%Z.
Proof.
  destruct (construct_statusError f msg ds) as (p & -> & Hc & _).
  exists (spec.numericCode (spec.kind f)). split.
  - unfold Translate. cbn [mbind option_bind]. rewrite ConvHTTP_statusError.
    cbn. now rewrite Hc, httpMap_index_table.
  - destruct f; simpl; lia.
Qed.

(** X11. The keys of [httpMap] are the codes up to 16, and a status error
    translates to the numeric code 0 exactly when its code is above 16. *)
Theorem X11_zero_code_iff_unmapped (now : svcerr.Time) (p : Status) :
  (svcerr.RestErr.Code <$> Translate now (Some (statusError p)) = Some 0%Z
   <-> (16 < s_Code p)%N)
  /\ (is_Some (svcerr.httpMap !! s_Code p) <-> (s_Code p <= 16)%N).
Proof.
  assert (Hin : (s_Code p <= 16)%N ->
                exists k, svcerr.httpMap !! s_Code p = Some (spec.numericCode k)).
  { intros Hle. destruct (code_le_16 _ Hle) as (k & ->).
    exists k. apply httpMap_table. }
  assert (Ht : svcerr.RestErr.Code <$> Translate now (Some (statusError p))
               = Some (default 0%Z (svcerr.httpMap !! s_Code p))) by reflexivity.
  rewrite Ht. clear Ht. split; split.
  - intros Hz. destruct (N.le_gt_cases (s_Code p) 16) as [Hle|Hgt]; [|exact Hgt].
    destruct (Hin Hle) as (k & Hk). rewrite Hk in Hz. simpl in Hz.
    pose proof (numericCode_range k). inversion Hz. lia.
  - intros Hgt. now rewrite (httpMap_outside _ Hgt).
  - intros [v Hv]. destruct (N.le_gt_cases (s_Code p) 16) as [Hle|Hgt]; [exact Hle|].
    rewrite (httpMap_outside _ Hgt) in Hv. discriminate.
  - intros Hle. destruct (Hin Hle) as (k & Hk). eauto.
Qed.

(** X12. A message whose percent signs are doubled is carried as the
    message itself: its translation has it as [Message], and without
    details [String] renders it verbatim. *)
Theorem X12_escaped_message (f : spec.Constructor) (msg : string)
    (ds : list proto.Message) (now : svcerr.Time) :
  svcerr.RestErr.Message <$> Translate now (spec.construct f (escapePercent msg) ds)
    = Some msg
  /\ spec.construct f (escapePercent msg) [] ≫= svcerr.String
     = Some ("Code = " +:+ codes.String (spec.code (spec.kind f))
             +:+ ", Message = " +:+ msg +:+ ", Details = []").
Proof.
  split.
  - destruct (construct_statusError f (escapePercent msg) ds) as (p & -> & _ & Hm).
    unfold Translate. cbn [mbind option_bind]. rewrite ConvHTTP_statusError.
    cbn. rewrite Hm. unfold fmt.Sprintf0. now rewrite doPrintf_escapePercent.
  - rewrite construct_newErr, newErr_no_details.
    rewrite (Errorf_statusError _ _ (kind_not_OK f)).
    cbn [mbind option_bind]. rewrite String_statusError. cbn [s_Code s_Message].
    unfold fmt.Sprintf0. now rewrite doPrintf_escapePercent.
Qed.

(** X13. The [Error] text of a constructor's error is
    [rpc error: code = <name> desc = <message>], with the message as
    [status.Errorf] formats it; the details never show in it. *)
Theorem X13_Error_text (f : spec.Constructor) (msg : string)
    (ds : list proto.Message) :
  spec.construct f msg ds ≫= Error_
    = Some ("rpc error: code = " +:+ codes.String (spec.code (spec.kind f))
            +:+ " desc = " +:+ fmt.Sprintf0 msg).
Proof.
  destruct (construct_statusError f msg ds) as (p & -> & Hc & Hm).
  cbn. unfold statusError_Error. now rewrite Hc, Hm.
Qed.

(** X14. What [TestErrorFuncs] checks, for every constructor:
    [status.Convert] of the error gives back the bound code, the message
    (one without a percent sign) and, for well-formed details, details
    that print as the ones passed, in order. *)
Theorem X14_Convert_round_trip (f : spec.Constructor) (msg : string)
    (ds : list proto.Message) :
  noPercent msg = true ->
  forallb spec.wellFormed ds = true ->
  exists s,
    spec.construct f msg ds ≫= Convert = Some s
    /\ Code s = spec.code (spec.kind f)
    /\ Message_ s = msg
    /\ map detailText (Details s) = map proto.String ds.
Proof.
  intros Hmsg Hwf.
  rewrite construct_newErr, (newErr_not_OK _ _ _ (kind_not_OK f)).
  destruct (appendDetails_wellFormed ds Hwf
              (mkStatus (spec.code (spec.kind f)) (fmt.Sprintf0 msg) []))
    as (anys & -> & Htxt).
  eexists. split; [reflexivity|]. cbn.
  repeat split; [now apply Sprintf0_noPercent|exact Htxt].
Qed.

(** X15. [newErr] returns the nil error exactly when the code is
    [codes.OK], whatever the message and the details. *)
Theorem X15_newErr_nil_iff_OK (c : codes.Code) (msg : string)
    (ds : list proto.Message) :
  svcerr.newErr c msg ds = Some nil <-> c = codes.OK.
Proof.
  split.
  - intros Hn. destruct (N.eq_dec c codes.OK) as [|Hc]; [assumption|].
    rewrite (newErr_not_OK _ _ _ Hc) in Hn.
    destruct (appendDetails _ ds); discriminate.
  - intros ->. apply newErr_OK.
Qed.

(** X16. For a message without a percent sign and well-formed details,
    the whole translation of a constructor's error: the table's numeric
    code, the code's name, the message and the details in brackets; and
    [String] renders the same three texts. *)
Theorem X16_full_record (f : spec.Constructor) (msg : string)
    (ds : list proto.Message) (now : svcerr.Time) :
  noPercent msg = true ->
  forallb spec.wellFormed ds = true ->
  Translate now (spec.construct f msg ds)
    = Some (svcerr.RestErr.mk
              (spec.numericCode (spec.kind f))
              (codes.String (spec.code (spec.kind f)))
              msg
              ("[" +:+ fmt.join " " (map proto.String ds) +:+ "]"))
  /\ spec.construct f msg ds ≫= svcerr.String
     = Some ("Code = " +:+ codes.String (spec.code (spec.kind f))
             +:+ ", Message = " +:+ msg
             +:+ ", Details = [" +:+ fmt.join " " (map proto.String ds) +:+ "]").
Proof.
  intros Hmsg Hwf.
  rewrite construct_newErr, (newErr_not_OK _ _ _ (kind_not_OK f)).
  destruct (appendDetails_wellFormed ds Hwf
              (mkStatus (spec.code (spec.kind f)) (fmt.Sprintf0 msg) []))
    as (anys & -> & Htxt).
  unfold Translate. cbn [mbind option_bind].
  rewrite ConvHTTP_statusError, String_statusError. cbn [s_Code s_Message].
  unfold DetailsText, Details, fmt.Sprintf_s_slice. cbn [s_Details app].
  rewrite Htxt, (Sprintf0_noPercent _ Hmsg), httpMap_index_table.
  split; reflexivity.
Qed.


(** X17. When every detail marshals, the details of the translation are
    what was stored, in order: for each detail the text of its decoded
    form, or the text of the decoding error in its place. *)
Theorem X17_details_as_stored (f : spec.Constructor) (msg : string)
    (ds : list proto.Message) (now : svcerr.Time) :
  forallb marshals ds = true ->
  svcerr.RestErr.Details <$> Translate now (spec.construct f msg ds)
    = Some ("[" +:+ fmt.join " " (map shown ds) +:+ "]").
Proof.
  intros Hm.
  rewrite construct_newErr, (newErr_not_OK _ _ _ (kind_not_OK f)).
  destruct (appendDetails_marshals ds Hm
              (mkStatus (spec.code (spec.kind f)) (fmt.Sprintf0 msg) []))
    as (anys & -> & Htxt).
  unfold Translate. cbn [mbind option_bind].
  rewrite ConvHTTP_statusError. cbn.
  unfold DetailsText, Details, fmt.Sprintf_s_slice. cbn [s_Details app].
  now rewrite Htxt.
Qed.

(** X18. The error tells its constructor: two constructors whose errors
    have the same [Code], or whose translations have the same [Desc], are
    the same constructor. *)
Theorem X18_constructor_identified (f g : spec.Constructor) (msg msg' : string)
    (ds ds' : list proto.Message) (now now' : svcerr.Time) :
  spec.construct f msg ds ≫= svcerr.Code = spec.construct g msg' ds' ≫= svcerr.Code
  \/ svcerr.RestErr.Desc <$> Translate now (spec.construct f msg ds)
     = svcerr.RestErr.Desc <$> Translate now' (spec.construct g msg' ds') ->
  f = g.
Proof.
  destruct (construct_statusError f msg ds) as (p & -> & Hp & _).
  destruct (construct_statusError g msg' ds') as (q & -> & Hq & _).
  unfold Translate. cbn [mbind option_bind]. rewrite !ConvHTTP_statusError.
  cbn. rewrite Hp, Hq. clear.
  intros [Hc|Hd].
  - destruct f, g; try reflexivity; discriminate Hc.
  - destruct f, g; try reflexivity; discriminate Hd.
Qed.

(** X19. Fail-soft construction, for a message without a percent sign:
    every constructor returns a non-nil error, and when attaching the
    details to the underlying status fails it returns the status error of
    the bound code with the message passed and no details, the same error
    as without details, and not the error of the attachment. *)
Theorem X19_fail_soft_verbatim (f : spec.Constructor) (msg : string)
    (ds : list proto.Message) (s : option Status) (lerr : error) :
  noPercent msg = true ->
  Convert (Errorf (spec.code (spec.kind f)) msg) = Some s ->
  WithDetails s ds = inr lerr ->
  spec.construct f msg ds
    = Some (statusError (mkStatus (spec.code (spec.kind f)) msg []))
  /\ spec.construct f msg ds = spec.construct f msg []
  /\ statusError (mkStatus (spec.code (spec.kind f)) msg []) <> lerr
  /\ statusError (mkStatus (spec.code (spec.kind f)) msg []) <> nil.
Proof.
  intros Hmsg Hs Hw.
  destruct (proj2 newErr_fail_soft f msg ds s lerr Hs Hw)
    as (Hres & Hsame & Hund & Hne).
  rewrite (Sprintf0_noPercent _ Hmsg) in Hund. rewrite Hund in Hres, Hne.
  repeat split; [exact Hres|exact Hsame|exact Hne|discriminate].
Qed.

End coverage.

(** ** The further properties at concrete inputs *)

Section coverage_tests.
Import status testdata observe.

(** X1 at [errors.New("test")], the second row of [TestString]. *)
Lemma X1_witness :
  svcerr.IsValid (errors_New "test") = Some false
  /\ svcerr.String (errors_New "test") = Error_ (errors_New "test").
Proof.
  split; [reflexivity|].
  apply (@X1_String_plain codec (errors_New "test")). reflexivity.
Defined.

(** X7 at the error of [TestWrap], wrapped twice. *)
Lemma X7_witness :
  Error_ (statusError (mkStatus codes.NotFound "Not Found" []))
    = Some "rpc error: code = NotFound desc = Not Found"
  /\ Error_ (svcerr.Wrap "Outer"
               (svcerr.Wrap "Inner"
                  (statusError (mkStatus codes.NotFound "Not Found" []))))
     = Some "Outer:(Inner:(rpc error: code = NotFound desc = Not Found))".
Proof.
  split; [reflexivity|].
  apply (@X7_Wrap_nested codec "Outer" "Inner"
           (statusError (mkStatus codes.NotFound "Not Found" []))
           "rpc error: code = NotFound desc = Not Found").
  reflexivity.
Defined.

(** X9 at the error of [ExampleInvalidArgs] with its detail. *)
Lemma X9_witness :
  svcerr.IsValid (statusError (@mkStatus codec codes.InvalidArgument "Additional Message" [br]))
    = Some true
  /\ svcerr.String (statusError (@mkStatus codec codes.InvalidArgument "Additional Message" [br]))
     = Some ("Code = " +:+ "InvalidArgument" +:+ ", Message = " +:+ "Additional Message"
             +:+ ", Details = "
             +:+ ("[" +:+ fieldViolation "Field Name" "mandatory field not provided"
                  +:+ "]")).
Proof.
  split; [reflexivity|].
  apply (@X9_String_of_ConvHTTP codec 0%Z
           (statusError (@mkStatus codec codes.InvalidArgument "Additional Message" [br]))
           (svcerr.RestErr.mk 400 "InvalidArgument" "Additional Message"
              ("[" +:+ fieldViolation "Field Name" "mandatory field not provided"
               +:+ "]")));
    reflexivity.
Defined.

(** X11 at a status error of code 17. *)
Lemma X11_witness :
  svcerr.RestErr.Code
    <$> Translate 0%Z (Some (statusError (mkStatus 17%N "x" []))) = Some 0%Z.
Proof.
  apply (proj2 (proj1 (@X11_zero_code_iff_unmapped codec 0%Z (mkStatus 17%N "x" [])))).
  reflexivity.
Defined.

(** X14 at the first row of [TestErrorFuncs]. *)
Lemma X14_witness :
  exists s,
    svcerr.InvalidArgs "Invalid msg" [badReq] ≫= Convert = Some s
    /\ Code s = codes.InvalidArgument
    /\ Message_ s = "Invalid msg"
    /\ map detailText (Details s) = [fieldViolation "Test" "Test"].
Proof.
  apply (@X14_Convert_round_trip codec spec.InvalidArgs "Invalid msg" [badReq]);
    reflexivity.
Defined.

(** X15 at [newErr(codes.OK, "x", &br)]. *)
Lemma X15_witness : svcerr.newErr codes.OK "x" [br] = Some nil.
Proof.
  apply (proj2 (@X15_newErr_nil_iff_OK codec codes.OK "x" [br])). reflexivity.
Defined.

(** X16 at [ExampleInvalidArgs]. *)
Lemma X16_witness :
  Translate 0%Z (svcerr.InvalidArgs "Additional Message" [br])
    = Some (svcerr.RestErr.mk 400 "InvalidArgument" "Additional Message"
              ("[" +:+ fieldViolation "Field Name" "mandatory field not provided"
               +:+ "]"))
  /\ svcerr.InvalidArgs "Additional Message" [br] ≫= svcerr.String
     = Some ("Code = InvalidArgument, Message = Additional Message, Details = ["
             +:+ fieldViolation "Field Name" "mandatory field not provided" +:+ "]").
Proof.
  apply (@X16_full_record codec spec.InvalidArgs "Additional Message" [br] 0%Z);
    reflexivity.
Defined.

(** X17 at two details of the tests. *)
Lemma X17_witness :
  svcerr.RestErr.Details
    <$> Translate 0%Z (svcerr.NotFound "Not Found" [badReq; br])
  = Some ("[" +:+ fieldViolation "Test" "Test" +:+ " "
          +:+ fieldViolation "Field Name" "mandatory field not provided" +:+ "]").
Proof.
  apply (@X17_details_as_stored codec spec.NotFound "Not Found" [badReq; br] 0%Z).
  reflexivity.
Defined.

(** X18 at two errors of [NotFound]. *)
Lemma X18_witness :
  svcerr.NotFound "Not Found" [] ≫= svcerr.Code
    = svcerr.NotFound "NotFound" [badReq] ≫= svcerr.Code
  /\ spec.NotFound = spec.NotFound.
Proof.
  split; [reflexivity|].
  apply (@X18_constructor_identified codec spec.NotFound spec.NotFound
           "Not Found" "NotFound" [] [badReq] 0%Z 0%Z).
  left. reflexivity.
Defined.

(** X19 at [InvalidArgs("Invalid msg", &badReq, nil)]: the nil message does
    not marshal, and the result is the undecorated error. *)
Lemma X19_witness :
  Convert (Errorf codes.InvalidArgument "Invalid msg")
    = Some (New codes.InvalidArgument "Invalid msg")
  /\ WithDetails (New codes.InvalidArgument "Invalid msg") [badReq; nilMessage]
     = inr (errorString "proto: Marshal called with nil")
  /\ svcerr.InvalidArgs "Invalid msg" [badReq; nilMessage]
     = Some (statusError (mkStatus codes.InvalidArgument "Invalid msg" [])).
Proof.
  split; [reflexivity|]. split; [reflexivity|].
  apply (@X19_fail_soft_verbatim codec spec.InvalidArgs "Invalid msg"
           [badReq; nilMessage] (New codes.InvalidArgument "Invalid msg")
           (errorString "proto: Marshal called with nil"));
    reflexivity.
Defined.

End coverage_tests.
